(** * Bundling of Rust Lambda functions: host or container

    A shallow embedding of [lib/bundling.ts].  The class [Bundling] decides,
    per construction, whether `cargo lambda` runs on the host or inside a
    Docker container, remembers in a static field whether the tool is
    available, and offers a local bundling attempt ([tryBundle]) that spawns
    the build in a shell.

    Strings are byte strings holding UTF-8 text.  JavaScript objects used as
    string-to-string dictionaries are [gmap string string].  Everything the
    module reads from outside itself (the host OS, the environment, helper
    modules that are imported from elsewhere) is gathered in [World]. *)

From Stdlib Require Import ZArith Ascii.
From stdpp Require Import base option list strings gmap.

Local Open Scope Z_scope.

(** ** Strings *)

(** The line feed written as [\n] in the source. *)
Definition LF : string := String (ascii_of_nat 10) EmptyString.

(** [String.prototype.trim] on UTF-8 text.  ECMAScript strips WhiteSpace and
    LineTerminator code points from both ends: U+0009..U+000D, U+0020,
    U+00A0, U+1680, U+2000..U+200A, U+2028, U+2029, U+202F, U+205F, U+3000
    and U+FEFF.  They are recognised here by their UTF-8 encodings. *)
Definition is_ws1 (a : N) : bool :=
  ((9 <=? a) && (a <=? 13) || (a =? 32))%N.

Definition is_ws2 (a b : N) : bool :=
  ((a =? 194) && (b =? 160))%N.

Definition is_ws3 (a b c : N) : bool :=
  ((a =? 225) && (b =? 154) && (c =? 128)
   || (a =? 226) && (b =? 128)
      && ((128 <=? c) && (c <=? 138) || (c =? 168) || (c =? 169) || (c =? 175))
   || (a =? 226) && (b =? 129) && (c =? 159)
   || (a =? 227) && (b =? 128) && (c =? 128)
   || (a =? 239) && (b =? 187) && (c =? 191))%N.

(** Drops the white space at the head of [s]; [ws2] and [ws3] say which two
    and three byte sequences are white space, in the order they are met. *)
Fixpoint strip (ws2 : N → N → bool) (ws3 : N → N → N → bool) (s : string)
  : string :=
  match s with
  | String a r =>
      if is_ws1 (N_of_ascii a) then strip ws2 ws3 r else
      match r with
      | String b r2 =>
          if ws2 (N_of_ascii a) (N_of_ascii b) then strip ws2 ws3 r2 else
          match r2 with
          | String c r3 =>
              if ws3 (N_of_ascii a) (N_of_ascii b) (N_of_ascii c)
              then strip ws2 ws3 r3 else s
          | EmptyString => s
          end
      | EmptyString => s
      end
  | EmptyString => EmptyString
  end.

Definition trimStart (s : string) : string := strip is_ws2 is_ws3 s.

Definition trimEnd (s : string) : string :=
  String.rev
    (strip (λ a b, is_ws2 b a) (λ a b c, is_ws3 c b a) (String.rev s)).

Definition trim (s : string) : string := trimEnd (trimStart s).

(** ** Data of the AWS CDK that the module handles *)

Inductive AssetHashType := SOURCE | BUNDLE | OUTPUT | CUSTOM.

(** [AssetStaging.BUNDLING_INPUT_DIR] and [AssetStaging.BUNDLING_OUTPUT_DIR]. *)
Definition BUNDLING_INPUT_DIR : string := "/asset-input".
Definition BUNDLING_OUTPUT_DIR : string := "/asset-output".

(** The options of [DockerImage.fromBuild]; each is optional. *)
Record DockerBuildOptions := {
  buildArgs : option (gmap string string);
  file : option string;
  platform : option string;
  targetStage : option string;
}.

(** The object literal [{}]. *)
Definition no_build_options : DockerBuildOptions :=
  {| buildArgs := None; file := None; platform := None; targetStage := None |}.

(** A [cdk.DockerImage] by the factory that made it. *)
Inductive DockerImage :=
| fromBuild (path : string) (options : DockerBuildOptions)
| fromRegistry (image : string).

(** ** Options for bundling *)

(** [BundlingProps]; the fields inherited from [DockerRunOptions], and
    [runtime] and [architecture], are never read by the class and are left
    out. *)
Record BundlingProps := {
  assetHashType : option AssetHashType;
  assetHash : option string;
  entry : string;
  bin : option string;
  target : string;
  buildEnvironment : option (gmap string string);
  forcedDockerBundling : option bool;
}.

(** The argument of [createBuildCommand]. *)
Module BuildOptions.
Record t := {
  entry : string;
  bin : option string;
  target : string;
  outDir : string;
  targetPlatform : string;
}.
End BuildOptions.

(** ** The process and the world around it *)

Record SpawnSyncOptions := {
  env : gmap string string;
  cwd : string;
  windowsVerbatimArguments : bool;
}.

(** What [spawnSync] returns, as far as [tryBundle] reads it: [status] is
    [null] when the child did not exit by itself, [stderr] holds the text of
    [stderr.toString()] and is [null] when the child could not be spawned. *)
Record SpawnSyncReturns := {
  status : option Z;
  stderr : option string;
}.

(** What the process does to the outside, in the order it does it. *)
Inductive Event :=
| EvProbe
| EvStdout (text : string)
| EvStderr (text : string)
| EvSpawn (shell : string) (args : list string) (options : SpawnSyncOptions).

(** The mutable state: the static field [Bundling.runsLocally] ([None] while
    it is [undefined]) and the events so far, oldest first. *)
Record Process := {
  runsLocally : option bool;
  events : list Event;
}.

(** How a call ends: it returns, it throws, or it ends the process with
    [process.exit]. *)
Inductive Outcome (A : Type) :=
| Returned (a : A)
| Thrown (error : string)
| Exited (code : Z).
Arguments Returned {A} a.
Arguments Thrown {A} error.
Arguments Exited {A} code.

(** What a call finds around itself.  [getCargoLambdaVersion] (module
    [./utils]), [createBuildCommand] (module [./build]) and
    [Settings.BUILD_ENVIRONMENT] (module [.]) are imported by the source
    and are parameters here, as are the operating system's answers. *)
Record World := {
  os_platform : string;
  getCargoLambdaVersion : option bool;
  BUILD_ENVIRONMENT : option (gmap string string);
  createBuildCommand : BuildOptions.t → Outcome string;
  process_env : gmap string string;
  spawnSync : string → list string → SpawnSyncOptions → SpawnSyncReturns;
  dirname : string;
  path_join : string → string → string;
}.

(** ** The monad of calls: state and early termination *)

Definition M (A : Type) : Type := Process → Outcome A * Process.

#[global] Instance M_ret : MRet M := λ A a p, (Returned a, p).

#[global] Instance M_bind : MBind M := λ A B f m p,
  match m p with
  | (Returned a, p') => f a p'
  | (Thrown e, p') => (Thrown e, p')
  | (Exited c, p') => (Exited c, p')
  end.

Definition emit (e : Event) : M unit := λ p,
  (Returned (), {| runsLocally := runsLocally p; events := events p ++ [e] |}).

Definition readRunsLocally : M (option bool) := λ p, (Returned (runsLocally p), p).

Definition writeRunsLocally (v : option bool) : M unit := λ p,
  (Returned (), {| runsLocally := v; events := events p |}).

Definition throw {A} (e : string) : M A := λ p, (Thrown e, p).

Definition process_exit {A} (c : Z) : M A := λ p, (Exited c, p).

(** The outcome of a helper that does not touch the state. *)
Definition call {A} (o : Outcome A) : M A := λ p, (o, p).

(** [console.log] and [console.error] join their string arguments with a
    space and end the line; [process.stderr.write] writes its argument. *)
Definition join_space (args : list string) : string :=
  match args with
  | [] => EmptyString
  | a :: r => foldl (λ acc x, acc +:+ " " +:+ x) a r
  end.

Definition console_log (args : list string) : M unit :=
  emit (EvStdout (join_space args +:+ LF)).

Definition console_error (args : list string) : M unit :=
  emit (EvStderr (join_space args +:+ LF)).

Definition stderr_write (text : string) : M unit := emit (EvStderr text).

(** ** JavaScript operators on optional values *)

(** Truthiness of a [boolean | undefined]. *)
Definition truthy (v : option bool) : bool := default false v.

(** [v == false] for a [boolean | undefined]: [undefined] is not loosely
    equal to [false]. *)
Definition loosely_false (v : option bool) : bool :=
  match v with
  | Some false => true
  | _ => false
  end.

(** [a || b] where [a] is an object or [undefined]: every object is truthy,
    the empty one too. *)
Definition object_or {A} (a b : option A) : option A :=
  match a with
  | Some x => Some x
  | None => b
  end.

(** ** The class [Bundling] *)

(** The local bundling object is a closure; it is represented by the
    variables its [tryBundle] method captures: the constructor's [props],
    [osPlatform] and [inputEnv]. *)
Record ILocalBundling := {
  captured_props : BundlingProps;
  captured_osPlatform : string;
  captured_inputEnv : option (gmap string string);
}.

Record Bundling := {
  props : BundlingProps;
  image : DockerImage;
  command : list string;
  environment : option (gmap string string);
  user : string;
  local : option ILocalBundling;
}.

Definition spawn (w : World) (shell : string) (args : list string)
    (options : SpawnSyncOptions) : M SpawnSyncReturns :=
  emit (EvSpawn shell args options);;
  mret (spawnSync w shell args options).

(** The probe of line 124, run only when the static field is [undefined]. *)
Definition probe (w : World) : M (option bool) :=
  emit EvProbe;; mret (getCargoLambdaVersion w).

(** The options the constructor builds the in-container command from. *)
Definition container_build_options (props : BundlingProps) : BuildOptions.t :=
  {| BuildOptions.entry := BUNDLING_INPUT_DIR;
     BuildOptions.bin := bin props;
     BuildOptions.target := target props;
     BuildOptions.outDir := BUNDLING_OUTPUT_DIR;
     BuildOptions.targetPlatform := "linux" |}.

(** [new Bundling(props)]. *)
Definition Bundling_new (w : World) (props : BundlingProps) : M Bundling :=
  cached ← readRunsLocally;
  resolved ← match cached with
             | Some b => mret b
             | None => v ← probe w; mret (default false v)
             end;
  writeRunsLocally (Some resolved);;
  let inputEnv := object_or (buildEnvironment props) (BUILD_ENVIRONMENT w) in
  (* Docker bundling *)
  static ← readRunsLocally;
  let shouldBuildImage :=
    truthy (forcedDockerBundling props) || negb (truthy static) in
  let image :=
    if shouldBuildImage
    then fromBuild (path_join w (dirname w) "../lib") no_build_options
    else fromRegistry "dummy" in
  buildCommand ← call (createBuildCommand w (container_build_options props));
  let command := ["bash"; "-c"; buildCommand] in
  (* Local bundling *)
  let local :=
    if negb (truthy (forcedDockerBundling props))
    then Some {| captured_props := props;
                 captured_osPlatform := os_platform w;
                 captured_inputEnv := inputEnv |}
    else None in
  mret {| props := props;
          image := image;
          command := command;
          environment := inputEnv;
          user := "root";
          local := local |}.

(** The options [tryBundle] builds the host command from. *)
Definition host_build_options (self : ILocalBundling) (outDir : string)
  : BuildOptions.t :=
  {| BuildOptions.entry := entry (captured_props self);
     BuildOptions.bin := bin (captured_props self);
     BuildOptions.target := target (captured_props self);
     BuildOptions.outDir := outDir;
     BuildOptions.targetPlatform := captured_osPlatform self |}.

(** [local.tryBundle(outDir)].  The static field, the environment and the
    helpers are those of the moment of the call; the platform is the one
    the constructor saw. *)
Definition tryBundle (self : ILocalBundling) (w : World) (outDir : string)
  : M bool :=
  static ← readRunsLocally;
  if loosely_false static then
    stderr_write
      ("cargo lambda cannot run locally. Switching to Docker bundling." +:+ LF);;
    mret false
  else
    console_log ["BUNDLING...: " +:+ outDir];;
    buildCommand ← call (createBuildCommand w (host_build_options self outDir));
    console_log ["Running:"; buildCommand];;
    let win32 := bool_decide (captured_osPlatform self = "win32") in
    cargo ← spawn w
      (if win32 then "cmd" else "bash")
      [if win32 then "/c" else "-c"; buildCommand]
      {| env := default ∅ (captured_inputEnv self) ∪ process_env w;
         cwd := entry (captured_props self);
         windowsVerbatimArguments := win32 |};
    if negb (bool_decide (status cargo = Some 0)) then
      match stderr cargo with
      | None =>
          throw "TypeError: Cannot read properties of null (reading 'toString')"
      | Some text =>
          console_error [trim text];;
          console_error ["💥  Run `cargo lambda` errored."];;
          process_exit 1
      end
    else mret true.

(** The bundling options and the asset options [Bundling.bundle] passes to
    [Code.fromAsset]. *)
Module BundlingOptions.
Record t := {
  image : DockerImage;
  command : list string;
  environment : option (gmap string string);
  local : option ILocalBundling;
  user : string;
}.
End BundlingOptions.

Module AssetOptions.
Record t := {
  assetHashType : AssetHashType;
  assetHash : option string;
  bundling : BundlingOptions.t;
}.
End AssetOptions.

(** [Code.fromAsset(path, options)], as the call it is. *)
Record AssetCode := {
  asset_path : string;
  asset_options : AssetOptions.t;
}.

(** [Bundling.bundle(options)]. *)
Definition bundle (w : World) (options : BundlingProps) : M AssetCode :=
  bundling ← Bundling_new w options;
  mret {| asset_path := entry options;
          asset_options :=
            {| AssetOptions.assetHashType :=
                 default SOURCE (assetHashType options);
               AssetOptions.assetHash := assetHash options;
               AssetOptions.bundling :=
                 {| BundlingOptions.image := image bundling;
                    BundlingOptions.command := command bundling;
                    BundlingOptions.environment := environment bundling;
                    BundlingOptions.local := local bundling;
                    BundlingOptions.user := user bundling |} |} |}.

(** ** The life of a process *)

(** One call into the class: a construction, or a local bundling attempt
    by a closure.  Each call may meet a different world. *)
Inductive Call :=
| New (w : World) (props : BundlingProps)
| TryBundle (self : ILocalBundling) (w : World) (outDir : string).

Definition exited {A} (o : Outcome A) : bool :=
  match o with Exited _ => true | _ => false end.

(** A call's effect on the process, and whether it ended the process. *)
Definition perform (c : Call) (p : Process) : bool * Process :=
  match c with
  | New w props =>
      let r := Bundling_new w props p in (exited r.1, r.2)
  | TryBundle self w outDir =>
      let r := tryBundle self w outDir p in (exited r.1, r.2)
  end.

(** The calls of [cs] one after the other, up to the first one that ends
    the process; a call that throws leaves the process running. *)
Fixpoint run (cs : list Call) (p : Process) : Process :=
  match cs with
  | [] => p
  | c :: cs' =>
      let r := perform c p in
      if r.1 then r.2 else run cs' r.2
  end.

Definition is_probe (e : Event) : bool :=
  match e with EvProbe => true | _ => false end.

Definition is_spawn (e : Event) : bool :=
  match e with EvSpawn _ _ _ => true | _ => false end.

(** The number of times the availability probe has run. *)
Definition probes (p : Process) : nat :=
  length (List.filter is_probe (events p)).

(** The subprocesses spawned so far. *)
Definition spawns (p : Process) : list Event :=
  List.filter is_spawn (events p).

(** The text written to standard error so far. *)
Definition stderr_text (p : Process) : list string :=
  omap (λ e, match e with EvStderr t => Some t | _ => None end) (events p).

(** ** A sample world, for running the model on concrete inputs *)

(** A stand-in for [createBuildCommand]: it only shows which options it
    was given.  The theorems below hold for every builder. *)
Definition sample_builder (o : BuildOptions.t) : Outcome string :=
  Returned ("build --target " +:+ BuildOptions.target o
            +:+ " --platform " +:+ BuildOptions.targetPlatform o
            +:+ " --out " +:+ BuildOptions.outDir o).

Definition sample_world (os : string) (available : option bool)
    (exit_status : Z) : World :=
  {| os_platform := os;
     getCargoLambdaVersion := available;
     BUILD_ENVIRONMENT := Some {[ "RUSTFLAGS" := "-C opt-level=3" ]};
     createBuildCommand := sample_builder;
     process_env := {[ "PATH" := "/usr/bin" ]};
     spawnSync := λ _ _ _,
       {| status := Some exit_status;
          stderr := Some (" error: could not compile" +:+ LF) |};
     dirname := "/pkg/dist";
     path_join := λ a b, a +:+ "/" +:+ b |}.

Definition sample_props (forced : option bool)
    (be : option (gmap string string)) : BundlingProps :=
  {| assetHashType := None;
     assetHash := None;
     entry := "/proj";
     bin := Some "handler";
     target := "aarch64-unknown-linux-gnu";
     buildEnvironment := be;
     forcedDockerBundling := forced |}.

(** A process in which nothing has happened yet. *)
Definition fresh : Process := {| runsLocally := None; events := [] |}.

(** ** What a construction leaves behind *)

(** The value the static field holds after line 125. *)
Definition resolved (w : World) (p : Process) : bool :=
  match runsLocally p with
  | Some b => b
  | None => default false (getCargoLambdaVersion w)
  end.

(** The process after a construction, whatever the construction's outcome. *)
Definition after_new (w : World) (p : Process) : Process :=
  {| runsLocally := Some (resolved w p);
     events := match runsLocally p with
               | Some _ => events p
               | None => events p ++ [EvProbe]
               end |}.

(** The same world on another operating system: the helpers are functions
    of their arguments and answer as before. *)
Definition with_os (os : string) (w : World) : World :=
  {| os_platform := os;
     getCargoLambdaVersion := getCargoLambdaVersion w;
     BUILD_ENVIRONMENT := BUILD_ENVIRONMENT w;
     createBuildCommand := createBuildCommand w;
     process_env := process_env w;
     spawnSync := spawnSync w;
     dirname := dirname w;
     path_join := path_join w |}.

(** The shell, the arguments and the options of the host build, for the
    command [c]. *)
Definition host_shell (self : ILocalBundling) : string :=
  if bool_decide (captured_osPlatform self = "win32") then "cmd" else "bash".

Definition host_args (self : ILocalBundling) (c : string) : list string :=
  [if bool_decide (captured_osPlatform self = "win32") then "/c" else "-c"; c].

Definition host_options (self : ILocalBundling) (w : World)
  : SpawnSyncOptions :=
  {| env := default ∅ (captured_inputEnv self) ∪ process_env w;
     cwd := entry (captured_props self);
     windowsVerbatimArguments :=
       bool_decide (captured_osPlatform self = "win32") |}.

(** What the operating system answers to the host build. *)
Definition host_result (self : ILocalBundling) (w : World) (c : string)
  : SpawnSyncReturns :=
  spawnSync w (host_shell self) (host_args self c) (host_options self w).

(** The lines [tryBundle] logs before it spawns the build. *)
Definition host_prologue (outDir c : string) : list Event :=
  [EvStdout ("BUNDLING...: " +:+ outDir +:+ LF);
   EvStdout ("Running: " +:+ c +:+ LF)].

Definition unavailable_message : string :=
  "cargo lambda cannot run locally. Switching to Docker bundling." +:+ LF.

Definition errored_message : string :=
  "💥  Run `cargo lambda` errored." +:+ LF.

(** The environment as a merge of both sources, the caller's value winning
    on a shared key; the construction is compared with it below. *)
Definition merged_environment (w : World) (props : BundlingProps)
  : gmap string string :=
  default ∅ (buildEnvironment props) ∪ default ∅ (BUILD_ENVIRONMENT w).

Definition environment_is_merged (w : World) (props : BundlingProps)
    (p : Process) : Prop :=
  ∀ b p', Bundling_new w props p = (Returned b, p') →
    ∀ k, default ∅ (environment b) !! k = merged_environment w props !! k.

(** ** More sample worlds *)

(** A stand-in builder that refuses a platform it does not know. *)
Definition picky_builder (o : BuildOptions.t) : Outcome string :=
  if bool_decide (BuildOptions.targetPlatform o ∈ ["linux"; "darwin"; "win32"])
  then sample_builder o
  else Thrown ("Unsupported platform: " +:+ BuildOptions.targetPlatform o).

(** A world with chosen defaults, builder and answer of the spawned build. *)
Definition sample_world_with (os : string) (available : option bool)
    (defaults : option (gmap string string))
    (builder : BuildOptions.t → Outcome string) (answer : SpawnSyncReturns)
  : World :=
  {| os_platform := os;
     getCargoLambdaVersion := available;
     BUILD_ENVIRONMENT := defaults;
     createBuildCommand := builder;
     process_env := {[ "PATH" := "/usr/bin" ]};
     spawnSync := λ _ _ _, answer;
     dirname := "/pkg/dist";
     path_join := λ a b, a +:+ "/" +:+ b |}.

(** The closure a construction from [props] on [os] makes. *)
Definition sample_local (os : string) (props : BundlingProps)
    (inputEnv : option (gmap string string)) : ILocalBundling :=
  {| captured_props := props;
     captured_osPlatform := os;
     captured_inputEnv := inputEnv |}.

(** What [tryBundle] throws when [cargo.stderr] is [null]. *)
Definition null_stderr_error : string :=
  "TypeError: Cannot read properties of null (reading 'toString')".

(** ** Basic facts *)

Ltac run_M :=
  unfold mbind, M_bind, mret, M_ret, probe, spawn, console_log, console_error,
    stderr_write, emit, readRunsLocally, writeRunsLocally, throw,
    process_exit, call; simpl.

Lemma Bundling_new_unfold w props p :
  Bundling_new w props p =
  match createBuildCommand w (container_build_options props) with
  | Returned c =>
      (Returned
         {| props := props;
            image :=
              if truthy (forcedDockerBundling props) || negb (resolved w p)
              then fromBuild (path_join w (dirname w) "../lib") no_build_options
              else fromRegistry "dummy";
            command := ["bash"; "-c"; c];
            environment :=
              object_or (buildEnvironment props) (BUILD_ENVIRONMENT w);
            user := "root";
            local :=
              if negb (truthy (forcedDockerBundling props))
              then Some {| captured_props := props;
                           captured_osPlatform := os_platform w;
                           captured_inputEnv :=
                             object_or (buildEnvironment props)
                                       (BUILD_ENVIRONMENT w) |}
              else None |},
       after_new w p)
  | Thrown e => (Thrown e, after_new w p)
  | Exited n => (Exited n, after_new w p)
  end.
Proof.
  unfold Bundling_new, after_new, resolved. run_M.
  destruct (runsLocally p) as [b|]; simpl;
    destruct (createBuildCommand w (container_build_options props));
    reflexivity.
Qed.

Lemma Bundling_new_state w props p :
  (Bundling_new w props p).2 = after_new w p.
Proof.
  rewrite Bundling_new_unfold.
  by destruct (createBuildCommand w (container_build_options props)).
Qed.

Lemma tryBundle_unfold self w outDir p :
  tryBundle self w outDir p =
  if loosely_false (runsLocally p) then
    (Returned false,
     {| runsLocally := runsLocally p;
        events := events p ++ [EvStderr unavailable_message] |})
  else
    match createBuildCommand w (host_build_options self outDir) with
    | Returned c =>
        let spawned :=
          events p ++ host_prologue outDir c
            ++ [EvSpawn (host_shell self) (host_args self c)
                  (host_options self w)] in
        if bool_decide (status (host_result self w c) = Some 0) then
          (Returned true,
           {| runsLocally := runsLocally p; events := spawned |})
        else
          match stderr (host_result self w c) with
          | None =>
              (Thrown
                 "TypeError: Cannot read properties of null (reading 'toString')",
               {| runsLocally := runsLocally p; events := spawned |})
          | Some text =>
              (Exited 1,
               {| runsLocally := runsLocally p;
                  events := spawned
                    ++ [EvStderr (trim text +:+ LF);
                        EvStderr errored_message] |})
          end
    | Thrown e =>
        (Thrown e,
         {| runsLocally := runsLocally p;
            events :=
              events p ++ [EvStdout ("BUNDLING...: " +:+ outDir +:+ LF)] |})
    | Exited n =>
        (Exited n,
         {| runsLocally := runsLocally p;
            events :=
              events p ++ [EvStdout ("BUNDLING...: " +:+ outDir +:+ LF)] |})
    end.
Proof.
  unfold tryBundle, host_result, host_shell, host_args, host_options,
    host_prologue. run_M.
  destruct (loosely_false (runsLocally p)); [reflexivity|]. simpl.
  destruct (createBuildCommand w (host_build_options self outDir)) as [c|e|n];
    simpl; [|reflexivity..].
  destruct (bool_decide (status _ = Some 0)); simpl.
  - by rewrite <- !(assoc_L (++)).
  - destruct (stderr _); simpl; by rewrite <- !(assoc_L (++)).
Qed.

Lemma probes_app p evs :
  List.forallb (λ e, negb (is_probe e)) evs = true →
  length (List.filter is_probe (events p ++ evs)) = probes p.
Proof.
  intros Hno. unfold probes. rewrite List.filter_app, length_app.
  enough (List.filter is_probe evs = []) as -> by (simpl; lia).
  induction evs as [|e evs IH]; [done|]. simpl in *.
  apply andb_prop in Hno as [He Hevs].
  destruct (is_probe e); [done|]. by apply IH.
Qed.

Lemma tryBundle_static self w outDir p :
  runsLocally (tryBundle self w outDir p).2 = runsLocally p.
Proof.
  rewrite tryBundle_unfold.
  repeat (case_match; simpl; try reflexivity).
Qed.

Lemma tryBundle_probes self w outDir p :
  probes (tryBundle self w outDir p).2 = probes p.
Proof.
  rewrite tryBundle_unfold.
  repeat (case_match; simpl; try reflexivity);
    unfold probes at 1; simpl; rewrite <- ?(assoc_L (++));
    by apply probes_app.
Qed.

Lemma after_new_cached w p b :
  runsLocally p = Some b →
  runsLocally (after_new w p) = Some b ∧ events (after_new w p) = events p.
Proof. intros Hb. unfold after_new, resolved. by rewrite Hb. Qed.

Lemma perform_stable c p b :
  runsLocally p = Some b →
  runsLocally (perform c p).2 = Some b ∧ probes (perform c p).2 = probes p.
Proof.
  intros Hb. destruct c as [w props|self w outDir]; simpl.
  - rewrite Bundling_new_state.
    destruct (after_new_cached w p b Hb) as [-> Hev].
    unfold probes. by rewrite Hev.
  - by rewrite tryBundle_static, tryBundle_probes.
Qed.

Lemma run_stable cs p b :
  runsLocally p = Some b →
  runsLocally (run cs p) = Some b ∧ probes (run cs p) = probes p.
Proof.
  revert p. induction cs as [|c cs IH]; intros p Hb; [done|]. simpl.
  destruct (perform_stable c p b Hb) as [Hb' Hp'].
  destruct (perform c p).1; [done|].
  destruct (IH _ Hb') as [? ?]. split; congruence.
Qed.

Lemma bundle_unfold w options p :
  bundle w options p =
  match Bundling_new w options p with
  | (Returned b, p') =>
      (Returned
         {| asset_path := entry options;
            asset_options :=
              {| AssetOptions.assetHashType :=
                   default SOURCE (assetHashType options);
                 AssetOptions.assetHash := assetHash options;
                 AssetOptions.bundling :=
                   {| BundlingOptions.image := image b;
                      BundlingOptions.command := command b;
                      BundlingOptions.environment := environment b;
                      BundlingOptions.local := local b;
                      BundlingOptions.user := user b |} |} |},
       p')
  | (Thrown e, p') => (Thrown e, p')
  | (Exited n, p') => (Exited n, p')
  end.
Proof.
  unfold bundle. run_M.
  by destruct (Bundling_new w options p) as [[b|e|n] p'].
Qed.

Lemma spawns_app p evs :
  List.filter is_spawn (events p ++ evs) = spawns p ++ List.filter is_spawn evs.
Proof. unfold spawns. by rewrite List.filter_app. Qed.

(** ** The strategy selector *)

(** C2: with [forcedDockerBundling = true] the construction asks for the
    image to be built from the package's [lib] directory and makes no local
    bundling object, whatever the static field holds and whatever the probe
    would answer; [Bundling.bundle] hands exactly that on. *)
Theorem C2_forced_docker_bundling w props p c :
  forcedDockerBundling props = Some true →
  createBuildCommand w (container_build_options props) = Returned c →
  ∃ b code,
    Bundling_new w props p = (Returned b, after_new w p) ∧
    image b = fromBuild (path_join w (dirname w) "../lib") no_build_options ∧
    local b = None ∧
    bundle w props p = (Returned code, after_new w p) ∧
    BundlingOptions.image (AssetOptions.bundling (asset_options code))
      = image b ∧
    BundlingOptions.local (AssetOptions.bundling (asset_options code)) = None.
Proof.
  intros Hforced Hc.
  rewrite bundle_unfold, Bundling_new_unfold, Hc, Hforced. simpl.
  eexists _, _. repeat split.
Qed.

Lemma C2_forced_docker_bundling_witness :
  ∃ b code,
    Bundling_new (sample_world "darwin" (Some true) 0)
      (sample_props (Some true) None) fresh
      = (Returned b, after_new (sample_world "darwin" (Some true) 0) fresh) ∧
    image b = fromBuild "/pkg/dist/../lib" no_build_options ∧
    local b = None ∧
    bundle (sample_world "darwin" (Some true) 0)
      (sample_props (Some true) None) fresh
      = (Returned code, after_new (sample_world "darwin" (Some true) 0) fresh) ∧
    BundlingOptions.image (AssetOptions.bundling (asset_options code))
      = image b ∧
    BundlingOptions.local (AssetOptions.bundling (asset_options code)) = None.
Proof.
  apply (C2_forced_docker_bundling (sample_world "darwin" (Some true) 0)
           (sample_props (Some true) None) fresh
           "build --target aarch64-unknown-linux-gnu --platform linux --out /asset-output");
    reflexivity.
Defined.

(** C3: when [forcedDockerBundling] is false or absent and the static field
    resolved to [false] at the construction, the image is to be built, and
    the local bundling object the construction made declines at any later
    moment of the process: it returns [false], writes the diagnostic and
    spawns nothing. *)
Theorem C3_unavailable_selects_container w props p c cs w2 outDir :
  truthy (forcedDockerBundling props) = false →
  runsLocally (Bundling_new w props p).2 = Some false →
  createBuildCommand w (container_build_options props) = Returned c →
  ∃ b l,
    Bundling_new w props p = (Returned b, after_new w p) ∧
    image b = fromBuild (path_join w (dirname w) "../lib") no_build_options ∧
    local b = Some l ∧
    tryBundle l w2 outDir (run cs (after_new w p))
      = (Returned false,
         {| runsLocally := Some false;
            events := events (run cs (after_new w p))
                        ++ [EvStderr unavailable_message] |}) ∧
    spawns (tryBundle l w2 outDir (run cs (after_new w p))).2
      = spawns (run cs (after_new w p)).
Proof.
  intros Hforced Hres Hc.
  rewrite Bundling_new_state in Hres.
  assert (resolved w p = false) as Hr by (simpl in Hres; congruence).
  destruct (run_stable cs _ _ Hres) as [Hlater _].
  rewrite Bundling_new_unfold, Hc, Hforced, Hr. simpl.
  eexists _, _. split; [reflexivity|]. split; [reflexivity|].
  split; [reflexivity|].
  rewrite tryBundle_unfold, Hlater. simpl. split; [reflexivity|].
  unfold spawns at 1. simpl. rewrite spawns_app. simpl. by rewrite app_nil_r.
Qed.

Lemma C3_unavailable_selects_container_witness :
  ∃ b l,
    Bundling_new (sample_world "linux" None 0) (sample_props None None) fresh
      = (Returned b, after_new (sample_world "linux" None 0) fresh) ∧
    image b = fromBuild "/pkg/dist/../lib" no_build_options ∧
    local b = Some l ∧
    tryBundle l (sample_world "linux" (Some true) 0) "/out"
      (run [New (sample_world "linux" (Some true) 0) (sample_props None None)]
         (after_new (sample_world "linux" None 0) fresh))
      = (Returned false,
         {| runsLocally := Some false;
            events := [EvProbe; EvStderr unavailable_message] |}) ∧
    spawns (tryBundle l (sample_world "linux" (Some true) 0) "/out"
      (run [New (sample_world "linux" (Some true) 0) (sample_props None None)]
         (after_new (sample_world "linux" None 0) fresh))).2 = [].
Proof.
  apply (C3_unavailable_selects_container (sample_world "linux" None 0)
           (sample_props None None) fresh
           "build --target aarch64-unknown-linux-gnu --platform linux --out /asset-output"
           [New (sample_world "linux" (Some true) 0) (sample_props None None)]
           (sample_world "linux" (Some true) 0) "/out");
    reflexivity.
Defined.

(** ** The cached availability *)

(** C4: the first construction leaves the static field resolved, and no
    later call changes it or runs the probe again, whatever the worlds
    those calls meet.  A later construction picks its image by the cached
    value, not by what its own world's probe would answer. *)
Theorem C4_availability_resolved_once w props p cs w' props' :
  is_Some (runsLocally (Bundling_new w props p).2) ∧
  runsLocally (run cs (Bundling_new w props p).2)
    = runsLocally (Bundling_new w props p).2 ∧
  probes (run cs (Bundling_new w props p).2)
    = probes (Bundling_new w props p).2 ∧
  runsLocally (Bundling_new w' props' (run cs (Bundling_new w props p).2)).2
    = runsLocally (Bundling_new w props p).2 ∧
  probes (Bundling_new w' props' (run cs (Bundling_new w props p).2)).2
    = probes (Bundling_new w props p).2 ∧
  match (Bundling_new w' props' (run cs (Bundling_new w props p).2)).1 with
  | Returned b' =>
      image b' =
        if truthy (forcedDockerBundling props')
           || negb (truthy (runsLocally (Bundling_new w props p).2))
        then fromBuild (path_join w' (dirname w') "../lib") no_build_options
        else fromRegistry "dummy"
  | _ => True
  end.
Proof.
  rewrite Bundling_new_state.
  set (p1 := after_new w p).
  assert (runsLocally p1 = Some (resolved w p)) as H1 by reflexivity.
  destruct (run_stable cs p1 _ H1) as [Hs Hp].
  split; [by rewrite H1|]. split; [congruence|]. split; [done|].
  rewrite Bundling_new_state.
  destruct (after_new_cached w' (run cs p1) _ Hs) as [Hs2 Hev2].
  split; [congruence|].
  split; [unfold probes in *; by rewrite Hev2|].
  rewrite Bundling_new_unfold.
  destruct (createBuildCommand w' (container_build_options props')); simpl;
    [|done..].
  unfold resolved. by rewrite Hs.
Qed.

(** The probe of a later construction is not consulted: here the tool is
    there at the first construction and gone at the second. *)
Example cache_survives_removal :
  let p1 :=
    (Bundling_new (sample_world "linux" (Some true) 0)
       (sample_props None None) fresh).2 in
  let p2 :=
    (Bundling_new (sample_world "linux" None 0)
       (sample_props None None) p1).2 in
  runsLocally p2 = Some true ∧ probes p2 = 1%nat.
Proof. by vm_compute. Qed.

(** C5: when the static field holds [false] as [tryBundle] is called, the
    call returns [false] after one write to standard error; no subprocess
    is spawned and the static field is left alone. *)
Theorem C5_unavailable_at_execution self w outDir p :
  runsLocally p = Some false →
  tryBundle self w outDir p
    = (Returned false,
       {| runsLocally := Some false;
          events := events p ++ [EvStderr unavailable_message] |}) ∧
  spawns (tryBundle self w outDir p).2 = spawns p ∧
  stderr_text (tryBundle self w outDir p).2
    = stderr_text p ++ [unavailable_message].
Proof.
  intros Hp. rewrite tryBundle_unfold, Hp. simpl.
  split; [reflexivity|]. split.
  - unfold spawns at 1. simpl. rewrite spawns_app. simpl. by rewrite app_nil_r.
  - unfold stderr_text. simpl. by rewrite omap_app.
Qed.

Lemma C5_unavailable_at_execution_witness :
  tryBundle
    {| captured_props := sample_props None None;
       captured_osPlatform := "linux";
       captured_inputEnv := None |}
    (sample_world "linux" (Some true) 0) "/out"
    {| runsLocally := Some false; events := [EvProbe] |}
    = (Returned false,
       {| runsLocally := Some false;
          events := [EvProbe; EvStderr unavailable_message] |}) ∧
  spawns (tryBundle
    {| captured_props := sample_props None None;
       captured_osPlatform := "linux";
       captured_inputEnv := None |}
    (sample_world "linux" (Some true) 0) "/out"
    {| runsLocally := Some false; events := [EvProbe] |}).2 = [] ∧
  stderr_text (tryBundle
    {| captured_props := sample_props None None;
       captured_osPlatform := "linux";
       captured_inputEnv := None |}
    (sample_world "linux" (Some true) 0) "/out"
    {| runsLocally := Some false; events := [EvProbe] |}).2
    = [unavailable_message].
Proof.
  apply (C5_unavailable_at_execution
           {| captured_props := sample_props None None;
              captured_osPlatform := "linux";
              captured_inputEnv := None |}
           (sample_world "linux" (Some true) 0) "/out"
           {| runsLocally := Some false; events := [EvProbe] |}).
  reflexivity.
Defined.

(** ** The host executor *)

(** [tryBundle] returns [true] only after a build that exited with 0. *)
Lemma tryBundle_true_inv self w outDir p :
  (tryBundle self w outDir p).1 = Returned true →
  ∃ c, createBuildCommand w (host_build_options self outDir) = Returned c ∧
       status (host_result self w c) = Some 0.
Proof.
  rewrite tryBundle_unfold.
  destruct (loosely_false (runsLocally p)); [done|].
  destruct (createBuildCommand w (host_build_options self outDir)) as [c|e|n];
    [|done..]. simpl.
  destruct (bool_decide (status (host_result self w c) = Some 0)) eqn:Hs.
  - apply bool_decide_eq_true in Hs. eauto.
  - by destruct (stderr (host_result self w c)).
Qed.

(** [trim] strips ASCII and Unicode white space from both ends only. *)
Example trim_ascii : trim (LF +:+ "  a b " +:+ LF) = "a b".
Proof. reflexivity. Qed.

Example trim_unicode :
  trim (String (ascii_of_nat 194) (String (ascii_of_nat 160) "error")
        +:+ String (ascii_of_nat 226) (String (ascii_of_nat 128)
              (String (ascii_of_nat 168) EmptyString)))
  = "error".
Proof. reflexivity. Qed.

(** C6: when the build that [tryBundle] spawned exits with a status other
    than 0, the text it wrote to standard error is trimmed and written to
    standard error, followed by the line that says `cargo lambda` errored,
    and the process exits with code 1; the call does not return. *)
Theorem C6_nonzero_exit_is_fatal self w outDir p c n text :
  loosely_false (runsLocally p) = false →
  createBuildCommand w (host_build_options self outDir) = Returned c →
  status (host_result self w c) = Some n →
  n ≠ 0 →
  stderr (host_result self w c) = Some text →
  tryBundle self w outDir p
    = (Exited 1,
       {| runsLocally := runsLocally p;
          events := (events p ++ host_prologue outDir c
                       ++ [EvSpawn (host_shell self) (host_args self c)
                             (host_options self w)])
                    ++ [EvStderr (trim text +:+ LF);
                        EvStderr errored_message] |}) ∧
  stderr_text (tryBundle self w outDir p).2
    = stderr_text p ++ [trim text +:+ LF; errored_message] ∧
  (tryBundle self w outDir p).1 ≠ Returned true.
Proof.
  intros Hrl Hc Hst Hn Herr.
  rewrite tryBundle_unfold, Hrl, Hc. simpl. rewrite Hst, Herr.
  rewrite bool_decide_eq_false_2 by congruence. simpl.
  split; [reflexivity|]. split; [|done].
  unfold stderr_text. simpl. by rewrite !omap_app, app_nil_r.
Qed.

Lemma C6_nonzero_exit_is_fatal_witness :
  tryBundle
    {| captured_props := sample_props None None;
       captured_osPlatform := "linux";
       captured_inputEnv := None |}
    (sample_world "linux" (Some true) 101) "/out"
    {| runsLocally := Some true; events := [EvProbe] |}
  = (Exited 1,
     {| runsLocally := Some true;
        events :=
          [EvProbe;
           EvStdout ("BUNDLING...: /out" +:+ LF);
           EvStdout
             ("Running: build --target aarch64-unknown-linux-gnu --platform linux --out /out"
              +:+ LF);
           EvSpawn "bash"
             ["-c";
              "build --target aarch64-unknown-linux-gnu --platform linux --out /out"]
             {| env := ∅ ∪ {[ "PATH" := "/usr/bin" ]};
                cwd := "/proj";
                windowsVerbatimArguments := false |};
           EvStderr ("error: could not compile" +:+ LF);
           EvStderr errored_message] |}) ∧
  stderr_text (tryBundle
    {| captured_props := sample_props None None;
       captured_osPlatform := "linux";
       captured_inputEnv := None |}
    (sample_world "linux" (Some true) 101) "/out"
    {| runsLocally := Some true; events := [EvProbe] |}).2
  = ["error: could not compile" +:+ LF; errored_message] ∧
  (tryBundle
    {| captured_props := sample_props None None;
       captured_osPlatform := "linux";
       captured_inputEnv := None |}
    (sample_world "linux" (Some true) 101) "/out"
    {| runsLocally := Some true; events := [EvProbe] |}).1 ≠ Returned true.
Proof.
  apply (C6_nonzero_exit_is_fatal
           {| captured_props := sample_props None None;
              captured_osPlatform := "linux";
              captured_inputEnv := None |}
           (sample_world "linux" (Some true) 101) "/out"
           {| runsLocally := Some true; events := [EvProbe] |}
           "build --target aarch64-unknown-linux-gnu --platform linux --out /out"
           101 (" error: could not compile" +:+ LF));
    [reflexivity | reflexivity | reflexivity | lia | reflexivity].
Defined.

(** ** The environment *)

Lemma lookup_spread (top base : gmap string string) (k : string) :
  (top ∪ base) !! k
  = match top !! k with Some v => Some v | None => base !! k end.
Proof.
  rewrite lookup_union.
  by destruct (top !! k), (base !! k).
Qed.

(** Past the availability check, and given a command, [tryBundle] spawns
    exactly one subprocess: the host build. *)
Lemma tryBundle_spawns self w outDir p c :
  loosely_false (runsLocally p) = false →
  createBuildCommand w (host_build_options self outDir) = Returned c →
  spawns (tryBundle self w outDir p).2
  = spawns p ++ [EvSpawn (host_shell self) (host_args self c)
                   (host_options self w)].
Proof.
  intros Hrl Hc. rewrite tryBundle_unfold, Hrl, Hc. simpl.
  destruct (bool_decide _); [|destruct (stderr _)]; simpl;
    unfold spawns; simpl; rewrite !List.filter_app; simpl;
    by rewrite ?app_nil_r.
Qed.

(** C7: the spawned build gets the process environment with the build
    environment spread over it, so a build variable keeps its value and
    every other variable has the ambient one; the container's environment
    is the build environment itself, which is also what the local bundling
    object keeps for the host build. *)
Theorem C7_environment_passed_on w0 props p0 c0 self w outDir p c k :
  createBuildCommand w0 (container_build_options props) = Returned c0 →
  loosely_false (runsLocally p) = false →
  createBuildCommand w (host_build_options self outDir) = Returned c →
  (∃ b,
     Bundling_new w0 props p0 = (Returned b, after_new w0 p0) ∧
     environment b
       = object_or (buildEnvironment props) (BUILD_ENVIRONMENT w0) ∧
     captured_inputEnv <$> local b
       = if truthy (forcedDockerBundling props) then None
         else Some (environment b)) ∧
  (∃ o,
     spawns (tryBundle self w outDir p).2
       = spawns p ++ [EvSpawn (host_shell self) (host_args self c) o] ∧
     env o = default ∅ (captured_inputEnv self) ∪ process_env w ∧
     env o !! k
       = match default ∅ (captured_inputEnv self) !! k with
         | Some v => Some v
         | None => process_env w !! k
         end).
Proof.
  intros Hc0 Hrl Hc. split.
  - rewrite Bundling_new_unfold, Hc0. eexists. split; [reflexivity|]. simpl.
    split; [reflexivity|]. by destruct (truthy (forcedDockerBundling props)).
  - exists (host_options self w). split; [|split; [reflexivity|]].
    + by apply tryBundle_spawns.
    + apply lookup_spread.
Qed.

Lemma C7_environment_passed_on_witness :
  (∃ b,
     Bundling_new (sample_world "linux" (Some true) 0)
       (sample_props None (Some {[ "RUSTFLAGS" := "-g" ]})) fresh
       = (Returned b, after_new (sample_world "linux" (Some true) 0) fresh) ∧
     environment b = Some {[ "RUSTFLAGS" := "-g" ]} ∧
     captured_inputEnv <$> local b = Some (environment b)) ∧
  (∃ o,
     spawns (tryBundle
               {| captured_props := sample_props None None;
                  captured_osPlatform := "linux";
                  captured_inputEnv := Some {[ "PATH" := "/opt/bin" ]} |}
               (sample_world "linux" (Some true) 0) "/out"
               {| runsLocally := Some true; events := [] |}).2
       = [EvSpawn "bash"
            ["-c";
             "build --target aarch64-unknown-linux-gnu --platform linux --out /out"]
            o] ∧
     env o = {[ "PATH" := "/opt/bin" ]} ∪ {[ "PATH" := "/usr/bin" ]} ∧
     env o !! "PATH" = Some "/opt/bin").
Proof.
  exact (C7_environment_passed_on (sample_world "linux" (Some true) 0)
           (sample_props None (Some {[ "RUSTFLAGS" := "-g" ]})) fresh
           "build --target aarch64-unknown-linux-gnu --platform linux --out /asset-output"
           {| captured_props := sample_props None None;
              captured_osPlatform := "linux";
              captured_inputEnv := Some {[ "PATH" := "/opt/bin" ]} |}
           (sample_world "linux" (Some true) 0) "/out"
           {| runsLocally := Some true; events := [] |}
           "build --target aarch64-unknown-linux-gnu --platform linux --out /out"
           "PATH" eq_refl eq_refl eq_refl).
Defined.

(** ** The container descriptor and the shell *)

(** C8: on whatever operating system the construction runs, the
    in-container command is [bash -c] with the command built for the
    platform tag [linux] from the staging directories, and an image that is
    built is built with no options, so with no platform. *)
Theorem C8_container_path_ignores_host w props p c os :
  createBuildCommand w (container_build_options props) = Returned c →
  ∃ b,
    Bundling_new (with_os os w) props p = (Returned b, after_new w p) ∧
    command b = ["bash"; "-c"; c] ∧
    BuildOptions.targetPlatform (container_build_options props) = "linux" ∧
    match image b with
    | fromBuild path options =>
        path = path_join w (dirname w) "../lib" ∧ platform options = None
    | fromRegistry name => name = "dummy"
    end.
Proof.
  intros Hc. rewrite Bundling_new_unfold. simpl. rewrite Hc.
  eexists. split; [reflexivity|]. simpl. split; [reflexivity|].
  split; [reflexivity|].
  by destruct (truthy (forcedDockerBundling props) || negb _).
Qed.

Lemma C8_container_path_ignores_host_witness :
  ∃ b,
    Bundling_new (with_os "win32" (sample_world "darwin" None 0))
      (sample_props None None) fresh
      = (Returned b, after_new (sample_world "darwin" None 0) fresh) ∧
    command b
      = ["bash"; "-c";
         "build --target aarch64-unknown-linux-gnu --platform linux --out /asset-output"] ∧
    BuildOptions.targetPlatform (container_build_options (sample_props None None))
      = "linux" ∧
    match image b with
    | fromBuild path options =>
        path = "/pkg/dist/../lib" ∧ platform options = None
    | fromRegistry name => name = "dummy"
    end.
Proof.
  exact (C8_container_path_ignores_host (sample_world "darwin" None 0)
           (sample_props None None) fresh
           "build --target aarch64-unknown-linux-gnu --platform linux --out /asset-output"
           "win32" eq_refl).
Defined.

(** C9: the command is one string.  The in-container command of a
    construction is the three strings [bash], [-c] and the whole command.
    Unless bundling is forced, the construction's local bundling object
    spawns the host build with two arguments, the shell's flag and the whole
    command, and the shell follows the operating system the construction
    ran on: [cmd /c] with verbatim arguments when [os.platform()] was
    [win32], [bash -c] without them on any other platform, in whatever
    world the attempt is made later. *)
Theorem C9_single_command_string w0 props p0 c0 w outDir p c :
  createBuildCommand w0 (container_build_options props) = Returned c0 →
  loosely_false (runsLocally p) = false →
  createBuildCommand w
    {| BuildOptions.entry := entry props;
       BuildOptions.bin := bin props;
       BuildOptions.target := target props;
       BuildOptions.outDir := outDir;
       BuildOptions.targetPlatform := os_platform w0 |} = Returned c →
  ∃ b,
    Bundling_new w0 props p0 = (Returned b, after_new w0 p0) ∧
    command b = ["bash"; "-c"; c0] ∧
    if truthy (forcedDockerBundling props) then local b = None
    else
      ∃ l shell flag options,
        local b = Some l ∧
        spawns (tryBundle l w outDir p).2
          = spawns p ++ [EvSpawn shell [flag; c] options] ∧
        if decide (os_platform w0 = "win32")
        then shell = "cmd" ∧ flag = "/c"
             ∧ windowsVerbatimArguments options = true
        else shell = "bash" ∧ flag = "-c"
             ∧ windowsVerbatimArguments options = false.
Proof.
  intros Hc0 Hrl Hc.
  rewrite Bundling_new_unfold, Hc0.
  eexists. split; [reflexivity|]. simpl. split; [reflexivity|].
  destruct (truthy (forcedDockerBundling props)); simpl; [reflexivity|].
  eexists _, _, _, _. split; [reflexivity|]. split.
  - erewrite tryBundle_spawns; [|exact Hrl|exact Hc]. reflexivity.
  - unfold host_shell, host_options. simpl.
    destruct (decide (os_platform w0 = "win32")) as [Hw|Hw].
    + by rewrite !bool_decide_eq_true_2.
    + by rewrite !bool_decide_eq_false_2.
Qed.

Lemma C9_single_command_string_witness :
  ∃ b,
    Bundling_new (sample_world "win32" (Some true) 0)
      (sample_props None None) fresh
      = (Returned b, after_new (sample_world "win32" (Some true) 0) fresh) ∧
    command b
      = ["bash"; "-c";
         "build --target aarch64-unknown-linux-gnu --platform linux --out /asset-output"] ∧
    ∃ l shell flag options,
      local b = Some l ∧
      spawns (tryBundle l (sample_world "win32" (Some true) 0) "C:\out"
                {| runsLocally := Some true; events := [] |}).2
        = [EvSpawn shell
             [flag;
              "build --target aarch64-unknown-linux-gnu --platform win32 --out C:\out"]
             options] ∧
      shell = "cmd" ∧ flag = "/c" ∧ windowsVerbatimArguments options = true.
Proof.
  exact (C9_single_command_string
           (sample_world "win32" (Some true) 0) (sample_props None None) fresh
           "build --target aarch64-unknown-linux-gnu --platform linux --out /asset-output"
           (sample_world "win32" (Some true) 0) "C:\out"
           {| runsLocally := Some true; events := [] |}
           "build --target aarch64-unknown-linux-gnu --platform win32 --out C:\out"
           eq_refl eq_refl eq_refl).
Defined.

(** On a host that is not Windows the same construction spawns [bash -c],
    also when the attempt is made in a world that reports [win32]. *)
Example host_shell_follows_construction :
  ∃ b l,
    (Bundling_new (sample_world "darwin" (Some true) 0)
       (sample_props None None) fresh).1 = Returned b ∧
    local b = Some l ∧
    spawns (tryBundle l (sample_world "win32" (Some true) 0) "/out"
              {| runsLocally := Some true; events := [] |}).2
      = [EvSpawn "bash"
           ["-c";
            "build --target aarch64-unknown-linux-gnu --platform darwin --out /out"]
           {| env := {[ "RUSTFLAGS" := "-C opt-level=3" ]}
                     ∪ {[ "PATH" := "/usr/bin" ]};
              cwd := "/proj";
              windowsVerbatimArguments := false |}].
Proof. eexists _, _. repeat split. Qed.

(** C10: when [forcedDockerBundling] is false or absent and the static
    field resolved to [true], no image is built: the image is the registry
    name [dummy].  The local bundling object of that construction never
    declines afterwards (it never returns [false]), and once the command is
    built it spawns the host build. *)
Theorem C10_dummy_image_when_local w props p c cs w2 outDir :
  truthy (forcedDockerBundling props) = false →
  runsLocally (Bundling_new w props p).2 = Some true →
  createBuildCommand w (container_build_options props) = Returned c →
  ∃ b l,
    Bundling_new w props p = (Returned b, after_new w p) ∧
    image b = fromRegistry "dummy" ∧
    local b = Some l ∧
    (tryBundle l w2 outDir (run cs (after_new w p))).1 ≠ Returned false ∧
    match createBuildCommand w2 (host_build_options l outDir) with
    | Returned c2 =>
        spawns (tryBundle l w2 outDir (run cs (after_new w p))).2
        = spawns (run cs (after_new w p))
            ++ [EvSpawn (host_shell l) (host_args l c2) (host_options l w2)]
    | _ => True
    end.
Proof.
  intros Hforced Hres Hc.
  rewrite Bundling_new_state in Hres.
  assert (resolved w p = true) as Hr by (simpl in Hres; congruence).
  destruct (run_stable cs _ _ Hres) as [Hlater _].
  rewrite Bundling_new_unfold, Hc, Hforced, Hr. simpl.
  eexists _, _. split; [reflexivity|]. split; [reflexivity|].
  split; [reflexivity|]. split.
  - rewrite tryBundle_unfold, Hlater. simpl.
    repeat (case_match; simpl; try done).
  - case_match; [|done..].
    apply tryBundle_spawns; [by rewrite Hlater | done].
Qed.

Lemma C10_dummy_image_when_local_witness :
  ∃ b l,
    Bundling_new (sample_world "darwin" (Some true) 0)
      (sample_props (Some false) None) fresh
      = (Returned b, after_new (sample_world "darwin" (Some true) 0) fresh) ∧
    image b = fromRegistry "dummy" ∧
    local b = Some l ∧
    (tryBundle l (sample_world "darwin" None 0) "/out"
       (run [New (sample_world "darwin" None 0) (sample_props None None)]
          (after_new (sample_world "darwin" (Some true) 0) fresh))).1
      ≠ Returned false ∧
    match sample_builder (host_build_options l "/out") with
    | Returned c2 =>
        spawns (tryBundle l (sample_world "darwin" None 0) "/out"
           (run [New (sample_world "darwin" None 0) (sample_props None None)]
              (after_new (sample_world "darwin" (Some true) 0) fresh))).2
        = [EvSpawn (host_shell l) (host_args l c2)
             (host_options l (sample_world "darwin" None 0))]
    | _ => True
    end.
Proof.
  exact (C10_dummy_image_when_local (sample_world "darwin" (Some true) 0)
           (sample_props (Some false) None) fresh
           "build --target aarch64-unknown-linux-gnu --platform linux --out /asset-output"
           [New (sample_world "darwin" None 0) (sample_props None None)]
           (sample_world "darwin" None 0) "/out" eq_refl eq_refl eq_refl).
Defined.

(** ** The build environment: either the caller's or the default *)

(** C1, as stated, fails: with the caller's [CARGO_TERM_COLOR] and the
    default [RUSTFLAGS], the environment of the construction has no
    [RUSTFLAGS]. *)
Lemma C1_environment_not_merged :
  ¬ environment_is_merged (sample_world "linux" (Some true) 0)
      (sample_props None (Some {[ "CARGO_TERM_COLOR" := "always" ]})) fresh.
Proof.
  intros Hmerged.
  specialize (Hmerged _ _ eq_refl "RUSTFLAGS").
  vm_compute in Hmerged. discriminate.
Qed.

(** C1, amended: the build environment is the caller's [buildEnvironment]
    when there is one, an empty one included, and [Settings.BUILD_ENVIRONMENT]
    only when there is none; key by key it is one source or the other, never
    both.  The container gets it as [environment] and the local bundling
    object keeps it for the host build. *)
Theorem C1_environment_override_or_default w props p c k :
  createBuildCommand w (container_build_options props) = Returned c →
  ∃ b,
    Bundling_new w props p = (Returned b, after_new w p) ∧
    environment b
      = match buildEnvironment props with
        | Some overrides => Some overrides
        | None => BUILD_ENVIRONMENT w
        end ∧
    default ∅ (environment b) !! k
      = match buildEnvironment props with
        | Some overrides => overrides !! k
        | None => default ∅ (BUILD_ENVIRONMENT w) !! k
        end ∧
    captured_inputEnv <$> local b
      = if truthy (forcedDockerBundling props) then None
        else Some (environment b).
Proof.
  intros Hc. rewrite Bundling_new_unfold, Hc.
  eexists. split; [reflexivity|]. simpl.
  split; [reflexivity|].
  split; [by destruct (buildEnvironment props)|].
  by destruct (truthy (forcedDockerBundling props)).
Qed.

Lemma C1_environment_override_or_default_witness :
  ∃ b,
    Bundling_new (sample_world "linux" (Some true) 0)
      (sample_props None (Some {[ "CARGO_TERM_COLOR" := "always" ]})) fresh
      = (Returned b, after_new (sample_world "linux" (Some true) 0) fresh) ∧
    environment b = Some {[ "CARGO_TERM_COLOR" := "always" ]} ∧
    default ∅ (environment b) !! "RUSTFLAGS" = None ∧
    captured_inputEnv <$> local b = Some (environment b).
Proof.
  exact (C1_environment_override_or_default
           (sample_world "linux" (Some true) 0)
           (sample_props None (Some {[ "CARGO_TERM_COLOR" := "always" ]}))
           fresh
           "build --target aarch64-unknown-linux-gnu --platform linux --out /asset-output"
           "RUSTFLAGS" eq_refl).
Defined.

(** * Further properties of the class *)

(** ** What [tryBundle] returns *)

Lemma tryBundle_false_inv self w outDir p :
  (tryBundle self w outDir p).1 = Returned false → runsLocally p = Some false.
Proof.
  rewrite tryBundle_unfold.
  destruct (runsLocally p) as [[]|]; simpl; [|done|];
    repeat (case_match; simpl; try done).
Qed.

Lemma tryBundle_false_cases self w outDir p :
  ((tryBundle self w outDir p).1 = Returned false → runsLocally p = Some false) ∧
  (runsLocally p = Some false → (tryBundle self w outDir p).1 = Returned false).
Proof.
  split; [apply tryBundle_false_inv|].
  intros Hrl. by rewrite tryBundle_unfold, Hrl.
Qed.

(** X1: [tryBundle] returns [true] exactly when the static field is not
    [false], the command was built and the spawned build exited with
    status 0; it returns [false] exactly when the static field is [false]. *)
Theorem tryBundle_return_value self w outDir p :
  ((tryBundle self w outDir p).1 = Returned true ↔
   loosely_false (runsLocally p) = false ∧
   ∃ c, createBuildCommand w (host_build_options self outDir) = Returned c ∧
        status (host_result self w c) = Some 0) ∧
  ((tryBundle self w outDir p).1 = Returned false ↔
   runsLocally p = Some false).
Proof.
  split; split.
  - intros Htrue. split; [|by apply (tryBundle_true_inv self w outDir p)].
    rewrite tryBundle_unfold in Htrue.
    by destruct (loosely_false (runsLocally p)).
  - intros [Hrl (c & Hc & Hst)].
    rewrite tryBundle_unfold, Hrl, Hc. simpl.
    rewrite Hst. by rewrite bool_decide_eq_true_2 by done.
  - apply tryBundle_false_inv.
  - intros Hrl. by rewrite tryBundle_unfold, Hrl.
Qed.

(** X2: a host build that exits with status 0 makes [tryBundle] return
    [true] after two lines on standard output and one spawn, run in the
    project's directory; nothing goes to standard error and the static
    field is untouched. *)
Theorem tryBundle_success self w outDir p c :
  loosely_false (runsLocally p) = false →
  createBuildCommand w (host_build_options self outDir) = Returned c →
  status (host_result self w c) = Some 0 →
  tryBundle self w outDir p
    = (Returned true,
       {| runsLocally := runsLocally p;
          events := events p
            ++ [EvStdout ("BUNDLING...: " +:+ outDir +:+ LF);
                EvStdout ("Running: " +:+ c +:+ LF);
                EvSpawn (host_shell self) (host_args self c)
                  (host_options self w)] |}) ∧
  cwd (host_options self w) = entry (captured_props self) ∧
  stderr_text (tryBundle self w outDir p).2 = stderr_text p.
Proof.
  intros Hrl Hc Hst.
  rewrite tryBundle_unfold, Hrl, Hc. simpl.
  rewrite Hst, bool_decide_eq_true_2 by done.
  split; [reflexivity|]. split; [reflexivity|].
  unfold stderr_text. simpl. by rewrite omap_app, app_nil_r.
Qed.

Lemma tryBundle_success_witness :
  tryBundle (sample_local "darwin" (sample_props None None) None)
    (sample_world "darwin" (Some true) 0) "/out"
    {| runsLocally := Some true; events := [EvProbe] |}
    = (Returned true,
       {| runsLocally := Some true;
          events :=
            [EvProbe;
             EvStdout ("BUNDLING...: /out" +:+ LF);
             EvStdout
               ("Running: build --target aarch64-unknown-linux-gnu --platform darwin --out /out"
                +:+ LF);
             EvSpawn "bash"
               ["-c";
                "build --target aarch64-unknown-linux-gnu --platform darwin --out /out"]
               {| env := {[ "PATH" := "/usr/bin" ]};
                  cwd := "/proj";
                  windowsVerbatimArguments := false |}] |}) ∧
  cwd (host_options (sample_local "darwin" (sample_props None None) None)
         (sample_world "darwin" (Some true) 0)) = "/proj" ∧
  stderr_text
    (tryBundle (sample_local "darwin" (sample_props None None) None)
       (sample_world "darwin" (Some true) 0) "/out"
       {| runsLocally := Some true; events := [EvProbe] |}).2 = [].
Proof.
  exact (tryBundle_success
           (sample_local "darwin" (sample_props None None) None)
           (sample_world "darwin" (Some true) 0) "/out"
           {| runsLocally := Some true; events := [EvProbe] |}
           "build --target aarch64-unknown-linux-gnu --platform darwin --out /out"
           eq_refl eq_refl eq_refl).
Defined.

(** X3: a build that ended without an exit status ([status] is [null], as
    after a signal) is a failure like a nonzero status: its standard error
    is written, trimmed, and the process exits with code 1. *)
Theorem tryBundle_null_status_is_fatal self w outDir p c text :
  loosely_false (runsLocally p) = false →
  createBuildCommand w (host_build_options self outDir) = Returned c →
  status (host_result self w c) = None →
  stderr (host_result self w c) = Some text →
  (tryBundle self w outDir p).1 = Exited 1 ∧
  stderr_text (tryBundle self w outDir p).2
    = stderr_text p ++ [trim text +:+ LF; errored_message].
Proof.
  intros Hrl Hc Hst Herr.
  rewrite tryBundle_unfold, Hrl, Hc. simpl. rewrite Hst, Herr. simpl.
  split; [reflexivity|].
  unfold stderr_text. simpl. by rewrite !omap_app, app_nil_r.
Qed.

Lemma tryBundle_null_status_is_fatal_witness :
  (tryBundle (sample_local "linux" (sample_props None None) None)
     (sample_world_with "linux" (Some true) None sample_builder
        {| status := None; stderr := Some ("Killed" +:+ LF) |})
     "/out" {| runsLocally := Some true; events := [] |}).1 = Exited 1 ∧
  stderr_text
    (tryBundle (sample_local "linux" (sample_props None None) None)
       (sample_world_with "linux" (Some true) None sample_builder
          {| status := None; stderr := Some ("Killed" +:+ LF) |})
       "/out" {| runsLocally := Some true; events := [] |}).2
    = ["Killed" +:+ LF; errored_message].
Proof.
  exact (tryBundle_null_status_is_fatal
           (sample_local "linux" (sample_props None None) None)
           (sample_world_with "linux" (Some true) None sample_builder
              {| status := None; stderr := Some ("Killed" +:+ LF) |})
           "/out" {| runsLocally := Some true; events := [] |}
           "build --target aarch64-unknown-linux-gnu --platform linux --out /out"
           ("Killed" +:+ LF) eq_refl eq_refl eq_refl eq_refl).
Defined.

(** X4: when the build did not end with status 0 and left no standard
    error at all ([stderr] is [null], as when the shell could not be
    started), [tryBundle] throws a [TypeError] on reading it: no diagnostic
    is written and the process is not exited. *)
Theorem tryBundle_null_stderr_throws self w outDir p c :
  loosely_false (runsLocally p) = false →
  createBuildCommand w (host_build_options self outDir) = Returned c →
  status (host_result self w c) ≠ Some 0 →
  stderr (host_result self w c) = None →
  (tryBundle self w outDir p).1 = Thrown null_stderr_error ∧
  stderr_text (tryBundle self w outDir p).2 = stderr_text p ∧
  spawns (tryBundle self w outDir p).2
    = spawns p ++ [EvSpawn (host_shell self) (host_args self c)
                     (host_options self w)].
Proof.
  intros Hrl Hc Hst Herr.
  split; [|split; [|by apply tryBundle_spawns]];
    rewrite tryBundle_unfold, Hrl, Hc; simpl;
    rewrite Herr, bool_decide_eq_false_2 by done; simpl; [reflexivity|].
  unfold stderr_text. simpl. by rewrite omap_app, app_nil_r.
Qed.

Lemma tryBundle_null_stderr_throws_witness :
  (tryBundle (sample_local "linux" (sample_props None None) None)
     (sample_world_with "linux" (Some true) None sample_builder
        {| status := None; stderr := None |})
     "/out" {| runsLocally := Some true; events := [] |}).1
    = Thrown null_stderr_error ∧
  stderr_text
    (tryBundle (sample_local "linux" (sample_props None None) None)
       (sample_world_with "linux" (Some true) None sample_builder
          {| status := None; stderr := None |})
       "/out" {| runsLocally := Some true; events := [] |}).2 = [] ∧
  spawns
    (tryBundle (sample_local "linux" (sample_props None None) None)
       (sample_world_with "linux" (Some true) None sample_builder
          {| status := None; stderr := None |})
       "/out" {| runsLocally := Some true; events := [] |}).2
    = [EvSpawn "bash"
         ["-c";
          "build --target aarch64-unknown-linux-gnu --platform linux --out /out"]
         {| env := {[ "PATH" := "/usr/bin" ]};
            cwd := "/proj";
            windowsVerbatimArguments := false |}].
Proof.
  refine (tryBundle_null_stderr_throws
            (sample_local "linux" (sample_props None None) None)
            (sample_world_with "linux" (Some true) None sample_builder
               {| status := None; stderr := None |})
            "/out" {| runsLocally := Some true; events := [] |}
            "build --target aarch64-unknown-linux-gnu --platform linux --out /out"
            eq_refl eq_refl _ eq_refl).
  discriminate.
Defined.

(** ** When the command cannot be built *)

(** X5: when [createBuildCommand] throws inside [tryBundle], the error
    leaves [tryBundle] as it is, after the first log line only: nothing is
    spawned and the call does not fall back to [false]. *)
Theorem tryBundle_builder_failure self w outDir p e :
  loosely_false (runsLocally p) = false →
  createBuildCommand w (host_build_options self outDir) = Thrown e →
  tryBundle self w outDir p
    = (Thrown e,
       {| runsLocally := runsLocally p;
          events := events p
            ++ [EvStdout ("BUNDLING...: " +:+ outDir +:+ LF)] |}) ∧
  spawns (tryBundle self w outDir p).2 = spawns p.
Proof.
  intros Hrl He. rewrite tryBundle_unfold, Hrl, He. simpl.
  split; [reflexivity|].
  unfold spawns at 1. simpl. rewrite spawns_app. simpl. by rewrite app_nil_r.
Qed.

Lemma tryBundle_builder_failure_witness :
  tryBundle (sample_local "freebsd" (sample_props None None) None)
    (sample_world_with "freebsd" (Some true) None picky_builder
       {| status := Some 0; stderr := Some EmptyString |})
    "/out" {| runsLocally := Some true; events := [] |}
    = (Thrown "Unsupported platform: freebsd",
       {| runsLocally := Some true;
          events := [EvStdout ("BUNDLING...: /out" +:+ LF)] |}) ∧
  spawns
    (tryBundle (sample_local "freebsd" (sample_props None None) None)
       (sample_world_with "freebsd" (Some true) None picky_builder
          {| status := Some 0; stderr := Some EmptyString |})
       "/out" {| runsLocally := Some true; events := [] |}).2 = [].
Proof.
  exact (tryBundle_builder_failure
           (sample_local "freebsd" (sample_props None None) None)
           (sample_world_with "freebsd" (Some true) None picky_builder
              {| status := Some 0; stderr := Some EmptyString |})
           "/out" {| runsLocally := Some true; events := [] |}
           "Unsupported platform: freebsd" eq_refl eq_refl).
Defined.

(** X6: when [createBuildCommand] throws inside the constructor, the
    construction and [Bundling.bundle] end with that error, yet the static
    field has been resolved by then: a later construction does not run the
    probe. *)
Theorem construction_builder_failure w props p e w' props' :
  createBuildCommand w (container_build_options props) = Thrown e →
  Bundling_new w props p = (Thrown e, after_new w p) ∧
  bundle w props p = (Thrown e, after_new w p) ∧
  runsLocally (Bundling_new w props p).2 = Some (resolved w p) ∧
  probes (Bundling_new w' props' (Bundling_new w props p).2).2
    = probes (Bundling_new w props p).2.
Proof.
  intros He.
  assert (Bundling_new w props p = (Thrown e, after_new w p)) as Hnew
    by (by rewrite Bundling_new_unfold, He).
  split; [done|]. split; [by rewrite bundle_unfold, Hnew|].
  rewrite Hnew. simpl. split; [done|].
  by destruct (perform_stable (New w' props') (after_new w p) (resolved w p)).
Qed.

Lemma construction_builder_failure_witness :
  Bundling_new
    (sample_world_with "linux" (Some true) None (λ _, Thrown "no cargo")
       {| status := Some 0; stderr := None |})
    (sample_props None None) fresh
    = (Thrown "no cargo", {| runsLocally := Some true; events := [EvProbe] |}) ∧
  bundle
    (sample_world_with "linux" (Some true) None (λ _, Thrown "no cargo")
       {| status := Some 0; stderr := None |})
    (sample_props None None) fresh
    = (Thrown "no cargo", {| runsLocally := Some true; events := [EvProbe] |}) ∧
  runsLocally
    (Bundling_new
       (sample_world_with "linux" (Some true) None (λ _, Thrown "no cargo")
          {| status := Some 0; stderr := None |})
       (sample_props None None) fresh).2 = Some true ∧
  probes
    (Bundling_new (sample_world "linux" None 0) (sample_props None None)
       (Bundling_new
          (sample_world_with "linux" (Some true) None (λ _, Thrown "no cargo")
             {| status := Some 0; stderr := None |})
          (sample_props None None) fresh).2).2
    = 1%nat.
Proof.
  exact (construction_builder_failure
           (sample_world_with "linux" (Some true) None (λ _, Thrown "no cargo")
              {| status := Some 0; stderr := None |})
           (sample_props None None) fresh "no cargo"
           (sample_world "linux" None 0) (sample_props None None) eq_refl).
Defined.

(** ** The image and the local bundling object agree *)

(** X7: a construction never yields the placeholder image [dummy] without a
    local bundling object that takes the build: that object never returns
    [false] at any later moment of the process, so the placeholder is never
    the image a container is run from. *)
Theorem dummy_image_is_never_run w props p b p1 cs w2 outDir :
  Bundling_new w props p = (Returned b, p1) →
  image b = fromRegistry "dummy" →
  ∃ l, local b = Some l ∧
       (tryBundle l w2 outDir (run cs p1)).1 ≠ Returned false.
Proof.
  rewrite Bundling_new_unfold.
  destruct (createBuildCommand w (container_build_options props)) as [c| |];
    [|done..].
  intros [= <- <-]. simpl.
  destruct (truthy (forcedDockerBundling props)); [done|]. simpl.
  destruct (resolved w p) eqn:Hr; [|done]. intros _.
  eexists. split; [reflexivity|].
  intros Hfalse%tryBundle_false_inv.
  destruct (run_stable cs (after_new w p) true) as [Hlater _];
    [by simpl; rewrite Hr|].
  congruence.
Qed.

Lemma dummy_image_is_never_run_witness :
  ∃ l,
    local
      {| props := sample_props None None;
         image := fromRegistry "dummy";
         command :=
           ["bash"; "-c";
            "build --target aarch64-unknown-linux-gnu --platform linux --out /asset-output"];
         environment := Some {[ "RUSTFLAGS" := "-C opt-level=3" ]};
         user := "root";
         local :=
           Some (sample_local "darwin" (sample_props None None)
                   (Some {[ "RUSTFLAGS" := "-C opt-level=3" ]})) |}
    = Some l ∧
    (tryBundle l (sample_world "darwin" (Some false) 0) "/out"
       (run [New (sample_world "darwin" (Some false) 0)
               (sample_props (Some true) None)]
          {| runsLocally := Some true; events := [EvProbe] |})).1
    ≠ Returned false.
Proof.
  exact (dummy_image_is_never_run (sample_world "darwin" (Some true) 0)
           (sample_props None None) fresh _ _
           [New (sample_world "darwin" (Some false) 0)
              (sample_props (Some true) None)]
           (sample_world "darwin" (Some false) 0) "/out" eq_refl eq_refl).
Defined.

(** X8: whenever the local bundling object of a construction declines, at
    whatever later moment, that construction's image is the one built from
    the package's [lib] directory: the fallback always has a real image. *)
Theorem decline_has_built_image w props p b p1 l cs w2 outDir :
  Bundling_new w props p = (Returned b, p1) →
  local b = Some l →
  (tryBundle l w2 outDir (run cs p1)).1 = Returned false →
  image b = fromBuild (path_join w (dirname w) "../lib") no_build_options ∧
  spawns (tryBundle l w2 outDir (run cs p1)).2 = spawns (run cs p1).
Proof.
  rewrite Bundling_new_unfold.
  destruct (createBuildCommand w (container_build_options props)) as [c| |];
    [|done..].
  intros [= <- <-] _ Hfalse%tryBundle_false_inv. simpl.
  destruct (run_stable cs (after_new w p) (resolved w p) eq_refl)
    as [Hlater _].
  assert (resolved w p = false) as -> by congruence.
  split; [by rewrite orb_true_r|].
  rewrite tryBundle_unfold, Hfalse. simpl.
  unfold spawns at 1. simpl. rewrite spawns_app. simpl. by rewrite app_nil_r.
Qed.

Lemma decline_has_built_image_witness :
  image
    {| props := sample_props None None;
       image := fromBuild "/pkg/dist/../lib" no_build_options;
       command :=
         ["bash"; "-c";
          "build --target aarch64-unknown-linux-gnu --platform linux --out /asset-output"];
       environment := Some {[ "RUSTFLAGS" := "-C opt-level=3" ]};
       user := "root";
       local :=
         Some (sample_local "linux" (sample_props None None)
                 (Some {[ "RUSTFLAGS" := "-C opt-level=3" ]})) |}
    = fromBuild "/pkg/dist/../lib" no_build_options ∧
  spawns
    (tryBundle
       (sample_local "linux" (sample_props None None)
          (Some {[ "RUSTFLAGS" := "-C opt-level=3" ]}))
       (sample_world "linux" (Some true) 0) "/out"
       (run [] {| runsLocally := Some false; events := [EvProbe] |})).2
    = [].
Proof.
  exact (decline_has_built_image (sample_world "linux" None 0)
           (sample_props None None) fresh _ _ _ []
           (sample_world "linux" (Some true) 0) "/out"
           eq_refl eq_refl eq_refl).
Defined.

(** ** The environment at its edges *)

(** X9: with no [buildEnvironment] and no [Settings.BUILD_ENVIRONMENT] the
    container's [environment] is [undefined], and the host build of the
    construction's local bundling object gets the process environment as
    it is. *)
Theorem no_build_environment w0 props p0 c0 w outDir p c :
  truthy (forcedDockerBundling props) = false →
  buildEnvironment props = None →
  BUILD_ENVIRONMENT w0 = None →
  createBuildCommand w0 (container_build_options props) = Returned c0 →
  loosely_false (runsLocally p) = false →
  createBuildCommand w
    {| BuildOptions.entry := entry props;
       BuildOptions.bin := bin props;
       BuildOptions.target := target props;
       BuildOptions.outDir := outDir;
       BuildOptions.targetPlatform := os_platform w0 |} = Returned c →
  ∃ b l,
    Bundling_new w0 props p0 = (Returned b, after_new w0 p0) ∧
    environment b = None ∧
    local b = Some l ∧
    spawns (tryBundle l w outDir p).2
      = spawns p
        ++ [EvSpawn (host_shell l) (host_args l c)
              {| env := process_env w;
                 cwd := entry props;
                 windowsVerbatimArguments :=
                   bool_decide (os_platform w0 = "win32") |}].
Proof.
  intros Hforced Hbe Hdef Hc0 Hrl Hc.
  rewrite Bundling_new_unfold, Hc0, Hforced, Hbe, Hdef. simpl.
  eexists _, _. split; [reflexivity|]. split; [reflexivity|].
  split; [reflexivity|].
  erewrite tryBundle_spawns; [|exact Hrl|exact Hc].
  unfold host_options. simpl. by rewrite (left_id_L ∅ (∪)).
Qed.

Lemma no_build_environment_witness :
  ∃ b l,
    Bundling_new
      (sample_world_with "linux" (Some true) None sample_builder
         {| status := Some 0; stderr := Some EmptyString |})
      (sample_props None None) fresh
      = (Returned b,
         after_new
           (sample_world_with "linux" (Some true) None sample_builder
              {| status := Some 0; stderr := Some EmptyString |}) fresh) ∧
    environment b = None ∧
    local b = Some l ∧
    spawns
      (tryBundle l (sample_world "linux" (Some true) 0) "/out"
         {| runsLocally := Some true; events := [] |}).2
      = [EvSpawn (host_shell l)
           (host_args l
              "build --target aarch64-unknown-linux-gnu --platform linux --out /out")
           {| env := {[ "PATH" := "/usr/bin" ]};
              cwd := "/proj";
              windowsVerbatimArguments := false |}].
Proof.
  exact (no_build_environment
           (sample_world_with "linux" (Some true) None sample_builder
              {| status := Some 0; stderr := Some EmptyString |})
           (sample_props None None) fresh
           "build --target aarch64-unknown-linux-gnu --platform linux --out /asset-output"
           (sample_world "linux" (Some true) 0) "/out"
           {| runsLocally := Some true; events := [] |}
           "build --target aarch64-unknown-linux-gnu --platform linux --out /out"
           eq_refl eq_refl eq_refl eq_refl eq_refl eq_refl).
Defined.

(** X10: an empty [buildEnvironment] object switches the defaults off: the
    container's [environment] is the empty object whatever
    [Settings.BUILD_ENVIRONMENT] holds, and the host build gets the process
    environment as it is. *)
Theorem empty_build_environment w0 props p0 c0 w outDir p c :
  truthy (forcedDockerBundling props) = false →
  buildEnvironment props = Some ∅ →
  createBuildCommand w0 (container_build_options props) = Returned c0 →
  loosely_false (runsLocally p) = false →
  createBuildCommand w
    {| BuildOptions.entry := entry props;
       BuildOptions.bin := bin props;
       BuildOptions.target := target props;
       BuildOptions.outDir := outDir;
       BuildOptions.targetPlatform := os_platform w0 |} = Returned c →
  ∃ b l,
    Bundling_new w0 props p0 = (Returned b, after_new w0 p0) ∧
    environment b = Some ∅ ∧
    local b = Some l ∧
    spawns (tryBundle l w outDir p).2
      = spawns p
        ++ [EvSpawn (host_shell l) (host_args l c)
              {| env := process_env w;
                 cwd := entry props;
                 windowsVerbatimArguments :=
                   bool_decide (os_platform w0 = "win32") |}].
Proof.
  intros Hforced Hbe Hc0 Hrl Hc.
  rewrite Bundling_new_unfold, Hc0, Hforced, Hbe. simpl.
  eexists _, _. split; [reflexivity|]. split; [reflexivity|].
  split; [reflexivity|].
  erewrite tryBundle_spawns; [|exact Hrl|exact Hc].
  unfold host_options. simpl. by rewrite (left_id_L ∅ (∪)).
Qed.

Lemma empty_build_environment_witness :
  ∃ b l,
    Bundling_new (sample_world "win32" (Some true) 0)
      (sample_props None (Some ∅)) fresh
      = (Returned b, after_new (sample_world "win32" (Some true) 0) fresh) ∧
    environment b = Some ∅ ∧
    local b = Some l ∧
    spawns
      (tryBundle l (sample_world "win32" (Some true) 0) "/out"
         {| runsLocally := Some true; events := [] |}).2
      = [EvSpawn (host_shell l)
           (host_args l
              "build --target aarch64-unknown-linux-gnu --platform win32 --out /out")
           {| env := {[ "PATH" := "/usr/bin" ]};
              cwd := "/proj";
              windowsVerbatimArguments := true |}].
Proof.
  exact (empty_build_environment (sample_world "win32" (Some true) 0)
           (sample_props None (Some ∅)) fresh
           "build --target aarch64-unknown-linux-gnu --platform linux --out /asset-output"
           (sample_world "win32" (Some true) 0) "/out"
           {| runsLocally := Some true; events := [] |}
           "build --target aarch64-unknown-linux-gnu --platform win32 --out /out"
           eq_refl eq_refl eq_refl eq_refl eq_refl).
Defined.

(** ** How often the probe runs *)

Lemma probes_after_new w p :
  probes (after_new w p)
  = match runsLocally p with
    | Some _ => probes p
    | None => S (probes p)
    end.
Proof.
  unfold probes, after_new. simpl.
  destruct (runsLocally p); [done|].
  rewrite List.filter_app, length_app. simpl. lia.
Qed.

(** X11: over any sequence of constructions and local bundling attempts
    the probe runs once more exactly when the sequence takes the static
    field from [undefined] to a boolean, and not at all otherwise: at most
    once in the life of a process. *)
Theorem probe_runs_at_most_once cs p :
  probes (run cs p)
  = match runsLocally p, runsLocally (run cs p) with
    | None, Some _ => S (probes p)
    | _, _ => probes p
    end.
Proof.
  revert p. induction cs as [|c cs IH]; intros p.
  - simpl. by destruct (runsLocally p).
  - simpl. destruct c as [w props|self w outDir]; simpl.
    + rewrite Bundling_new_state.
      destruct (run_stable cs (after_new w p) (resolved w p) eq_refl)
        as [Hs Hp].
      destruct (exited _); simpl; rewrite ?Hs, ?Hp, probes_after_new;
        by destruct (runsLocally p).
    + destruct (exited _); simpl.
      * rewrite tryBundle_static, tryBundle_probes.
        by destruct (runsLocally p).
      * by rewrite IH, tryBundle_static, tryBundle_probes.
Qed.

(** X12: a probe that answers [undefined] at the first construction is
    cached as [false], not left open: the probe has run once, and a later
    construction keeps [false] without asking again, whatever its own
    world's probe would answer. *)
Theorem failed_probe_is_cached w props p cs w' props' :
  runsLocally p = None →
  getCargoLambdaVersion w = None →
  runsLocally (Bundling_new w props p).2 = Some false ∧
  probes (Bundling_new w props p).2 = S (probes p) ∧
  runsLocally (Bundling_new w' props' (run cs (Bundling_new w props p).2)).2
    = Some false ∧
  probes (Bundling_new w' props' (run cs (Bundling_new w props p).2)).2
    = S (probes p).
Proof.
  intros Hp Hw. rewrite Bundling_new_state.
  assert (runsLocally (after_new w p) = Some false) as H1
    by (unfold after_new, resolved; simpl; by rewrite Hp, Hw).
  assert (probes (after_new w p) = S (probes p)) as H2
    by (by rewrite probes_after_new, Hp).
  split; [done|]. split; [done|].
  destruct (run_stable cs _ _ H1) as [Hs1 Hn1].
  destruct (perform_stable (New w' props') _ _ Hs1) as [Hs2 Hn2].
  simpl in Hs2, Hn2. split; [done|]. congruence.
Qed.

Lemma failed_probe_is_cached_witness :
  runsLocally
    (Bundling_new (sample_world "linux" None 0) (sample_props None None)
       fresh).2 = Some false ∧
  probes
    (Bundling_new (sample_world "linux" None 0) (sample_props None None)
       fresh).2 = 1%nat ∧
  runsLocally
    (Bundling_new (sample_world "linux" (Some true) 0) (sample_props None None)
       (run [TryBundle (sample_local "linux" (sample_props None None) None)
               (sample_world "linux" (Some true) 0) "/out"]
          (Bundling_new (sample_world "linux" None 0)
             (sample_props None None) fresh).2)).2 = Some false ∧
  probes
    (Bundling_new (sample_world "linux" (Some true) 0) (sample_props None None)
       (run [TryBundle (sample_local "linux" (sample_props None None) None)
               (sample_world "linux" (Some true) 0) "/out"]
          (Bundling_new (sample_world "linux" None 0)
             (sample_props None None) fresh).2)).2 = 1%nat.
Proof.
  exact (failed_probe_is_cached (sample_world "linux" None 0)
           (sample_props None None) fresh
           [TryBundle (sample_local "linux" (sample_props None None) None)
              (sample_world "linux" (Some true) 0) "/out"]
           (sample_world "linux" (Some true) 0) (sample_props None None)
           eq_refl eq_refl).
Defined.

(** ** The asset that [Bundling.bundle] asks for *)

(** X13: [Bundling.bundle] stages the asset at the project's [entry], hashes
    it by [SOURCE] unless the caller chose a hash type, passes [assetHash]
    on whatever the hash type is, and describes a container run as [root]
    with the command [bash -c] and the build environment. *)
Theorem bundle_asset w options p c :
  createBuildCommand w (container_build_options options) = Returned c →
  ∃ code,
    bundle w options p = (Returned code, after_new w p) ∧
    asset_path code = entry options ∧
    AssetOptions.assetHashType (asset_options code)
      = match assetHashType options with
        | Some chosen => chosen
        | None => SOURCE
        end ∧
    AssetOptions.assetHash (asset_options code) = assetHash options ∧
    BundlingOptions.user (AssetOptions.bundling (asset_options code))
      = "root" ∧
    BundlingOptions.command (AssetOptions.bundling (asset_options code))
      = ["bash"; "-c"; c] ∧
    BundlingOptions.environment (AssetOptions.bundling (asset_options code))
      = object_or (buildEnvironment options) (BUILD_ENVIRONMENT w).
Proof.
  intros Hc. rewrite bundle_unfold, Bundling_new_unfold, Hc.
  eexists. split; [reflexivity|]. simpl.
  by destruct (assetHashType options).
Qed.

Lemma bundle_asset_witness :
  ∃ code,
    bundle (sample_world "linux" (Some true) 0)
      {| assetHashType := Some OUTPUT;
         assetHash := Some "abc";
         entry := "/proj";
         bin := None;
         target := "x86_64-unknown-linux-gnu";
         buildEnvironment := None;
         forcedDockerBundling := None |} fresh
      = (Returned code, after_new (sample_world "linux" (Some true) 0) fresh) ∧
    asset_path code = "/proj" ∧
    AssetOptions.assetHashType (asset_options code) = OUTPUT ∧
    AssetOptions.assetHash (asset_options code) = Some "abc" ∧
    BundlingOptions.user (AssetOptions.bundling (asset_options code))
      = "root" ∧
    BundlingOptions.command (AssetOptions.bundling (asset_options code))
      = ["bash"; "-c";
         "build --target x86_64-unknown-linux-gnu --platform linux --out /asset-output"] ∧
    BundlingOptions.environment (AssetOptions.bundling (asset_options code))
      = Some {[ "RUSTFLAGS" := "-C opt-level=3" ]}.
Proof.
  exact (bundle_asset (sample_world "linux" (Some true) 0)
           {| assetHashType := Some OUTPUT;
              assetHash := Some "abc";
              entry := "/proj";
              bin := None;
              target := "x86_64-unknown-linux-gnu";
              buildEnvironment := None;
              forcedDockerBundling := None |} fresh
           "build --target x86_64-unknown-linux-gnu --platform linux --out /asset-output"
           eq_refl).
Defined.

(** ** The selector, in both directions *)

(** X14: of a construction that returned, the image is the placeholder
    exactly when bundling is not forced and the static field holds [true],
    it is the built image exactly when bundling is forced or the static
    field holds [false], and there is no local bundling object exactly when
    bundling is forced. *)
Theorem selector_table w props p b p1 :
  Bundling_new w props p = (Returned b, p1) →
  (image b = fromRegistry "dummy" ↔
   truthy (forcedDockerBundling props) = false ∧ runsLocally p1 = Some true) ∧
  (image b = fromBuild (path_join w (dirname w) "../lib") no_build_options ↔
   truthy (forcedDockerBundling props) = true ∨ runsLocally p1 = Some false) ∧
  (local b = None ↔ truthy (forcedDockerBundling props) = true).
Proof.
  rewrite Bundling_new_unfold.
  destruct (createBuildCommand w (container_build_options props)) as [c| |];
    [|done..].
  intros [= <- <-]. simpl.
  destruct (truthy (forcedDockerBundling props)), (resolved w p); simpl;
    repeat split; try done; try tauto; intuition discriminate.
Qed.

Lemma selector_table_witness :
  let b :=
    {| props := sample_props None None;
       image := fromRegistry "dummy";
       command :=
         ["bash"; "-c";
          "build --target aarch64-unknown-linux-gnu --platform linux --out /asset-output"];
       environment := Some {[ "RUSTFLAGS" := "-C opt-level=3" ]};
       user := "root";
       local :=
         Some (sample_local "linux" (sample_props None None)
                 (Some {[ "RUSTFLAGS" := "-C opt-level=3" ]})) |} in
  (image b = fromRegistry "dummy" ↔
   truthy (forcedDockerBundling (sample_props None None)) = false
   ∧ Some true = Some true) ∧
  (image b = fromBuild "/pkg/dist/../lib" no_build_options ↔
   truthy (forcedDockerBundling (sample_props None None)) = true
   ∨ Some true = Some false) ∧
  (local b = None ↔
   truthy (forcedDockerBundling (sample_props None None)) = true).
Proof.
  exact (selector_table (sample_world "linux" (Some true) 0)
           (sample_props None None) fresh _
           {| runsLocally := Some true; events := [EvProbe] |} eq_refl).
Defined.

(** ** What [tryBundle] leaves alone *)

(** X15: whatever its outcome, [tryBundle] does not write the static field
    and does not run the probe; it only adds to the events, and among them
    is at most one call of [spawnSync]. *)
Theorem tryBundle_footprint self w outDir p :
  runsLocally (tryBundle self w outDir p).2 = runsLocally p ∧
  probes (tryBundle self w outDir p).2 = probes p ∧
  (∃ added, events (tryBundle self w outDir p).2 = events p ++ added) ∧
  (spawns (tryBundle self w outDir p).2 = spawns p ∨
   ∃ c, spawns (tryBundle self w outDir p).2
        = spawns p ++ [EvSpawn (host_shell self) (host_args self c)
                         (host_options self w)]).
Proof.
  split; [apply tryBundle_static|]. split; [apply tryBundle_probes|].
  destruct (loosely_false (runsLocally p)) eqn:Hrl.
  - rewrite tryBundle_unfold, Hrl. simpl. split; [eauto|]. left.
    unfold spawns at 1. simpl. rewrite spawns_app. simpl.
    by rewrite app_nil_r.
  - destruct (createBuildCommand w (host_build_options self outDir))
      as [c|e|n] eqn:Hc.
    + split; [|right; exists c; by apply tryBundle_spawns].
      rewrite tryBundle_unfold, Hrl, Hc. simpl.
      repeat (case_match; simpl); rewrite <- ?(assoc_L (++)); eauto.
    + rewrite tryBundle_unfold, Hrl, Hc. simpl. split; [eauto|]. left.
      unfold spawns at 1. simpl. rewrite spawns_app. simpl.
      by rewrite app_nil_r.
    + rewrite tryBundle_unfold, Hrl, Hc. simpl. split; [eauto|]. left.
      unfold spawns at 1. simpl. rewrite spawns_app. simpl.
      by rewrite app_nil_r.
Qed.

(** X16: after a construction, declining is a verdict for the whole
    process: if one local bundling attempt returns [false] at some moment,
    then any local bundling object, in any world, returns [false] at any
    later moment, and the other way round. *)
Theorem decline_is_process_wide
    w props p cs1 self1 w1 outDir1 cs2 self2 w2 outDir2 :
  (tryBundle self1 w1 outDir1 (run cs1 (Bundling_new w props p).2)).1
    = Returned false ↔
  (tryBundle self2 w2 outDir2
     (run cs2 (run cs1 (Bundling_new w props p).2))).1
    = Returned false.
Proof.
  rewrite Bundling_new_state.
  destruct (run_stable cs1 (after_new w p) (resolved w p) eq_refl)
    as [Hs1 _].
  destruct (run_stable cs2 _ _ Hs1) as [Hs2 _].
  destruct (tryBundle_false_cases self1 w1 outDir1
              (run cs1 (after_new w p))) as [Hto1 Hfrom1].
  destruct (tryBundle_false_cases self2 w2 outDir2
              (run cs2 (run cs1 (after_new w p)))) as [Hto2 Hfrom2].
  split; intros H.
  - apply Hfrom2. apply Hto1 in H. congruence.
  - apply Hfrom1. apply Hto2 in H. congruence.
Qed.
